(** * coral: the CWinPrivate module header [nt.h]

    The repository's C source is one header,
    [Sources/CWinPrivate/include/nt.h].  It holds no statement: behind an
    include guard it pulls in two Windows SDK headers and declares the
    prototype of the native export [NtDelayExecution].

    This development embeds the header as the list of its logical lines,
    gives the preprocessor directives it uses their meaning, elaborates the
    prototype against the names the included SDK headers bring into
    scope, types a call against it with C's conversion of the actual
    arguments, and gives a call through the declared binding its meaning
    over a byte-addressed memory.  The text of the SDK headers is not in
    the repository: what they supply is a parameter of the elaboration.
    The delay operation that calls the binding is not among the C sources;
    it is modelled from the specification in [Delay]. *)

From Stdlib Require Import ZArith Lia.
From stdpp Require Import base decidable option strings gmap list.

Local Open Scope Z_scope.

(** ** The header as written *)

Module Header.

(** A parameter of a prototype, token by token:
    [IN BOOLEAN Alertable] is annotation, type name, parameter name. *)
Record parameter := Par {
  par_annotation : string;
  par_type : string;
  par_name : string
}.

(** A prototype, token by token:
    linkage macro, result type name, calling-convention macro, function
    name, parameters. *)
Record prototype := Proto {
  pr_linkage : string;
  pr_result : string;
  pr_convention : string;
  pr_name : string;
  pr_params : list parameter
}.

(** The logical lines that occur in the header.  Comments and blank lines
    are gone after translation phase 3 and are not represented. *)
Inductive line :=
  | Ifndef (macro : string)
  | Define (macro : string)
  | Include (header : string)
  | Fun_decl (p : prototype)
  | Endif.

(** [NTSYSAPI NTSTATUS NTAPI NtDelayExecution(IN BOOLEAN Alertable,
                                              IN PLARGE_INTEGER DelayInterval);] *)
Definition NtDelayExecution : prototype :=
  Proto "NTSYSAPI" "NTSTATUS" "NTAPI" "NtDelayExecution"
    [ Par "IN" "BOOLEAN" "Alertable";
      Par "IN" "PLARGE_INTEGER" "DelayInterval" ].

(** The file, line by line. *)
Definition nt_h : list line :=
  [ Ifndef "__CWINPRIVATE_NT_H";
    Define "__CWINPRIVATE_NT_H";
    Define "WIN32_LEAN_AND_MEAN";
    Include "windows.h";
    Include "wincred.h";
    Fun_decl NtDelayExecution;
    Endif ].

(** *** Preprocessing *)

(** What the preprocessor has seen of a text's own lines so far: the
    macros these lines defined, how many conditional groups are being
    skipped (0: lines are live), the headers they asked for and the
    prototypes they wrote in live text, both in order of appearance.
    What an included header contains is not part of this state: an
    [#include] is recorded by name, and the names the header supplies
    enter at elaboration, through [in_scope] below.  The macros here are
    the object-like, empty ones the text defines itself. *)
Record pp_state := PP {
  defined : gset string;
  skipping : nat;
  included : list string;
  declared : list prototype
}.

Definition pp_start : pp_state := PP ∅ 0 [] [].

Definition pp_line (st : pp_state) (l : line) : pp_state :=
  match skipping st with
  | S d =>
      (* inside a skipped group only the nesting of conditionals counts *)
      match l with
      | Ifndef _ => PP (defined st) (S (S d)) (included st) (declared st)
      | Endif => PP (defined st) d (included st) (declared st)
      | _ => st
      end
  | O =>
      match l with
      | Ifndef m =>
          if decide (m ∈ defined st)
          then PP (defined st) 1 (included st) (declared st)
          else st
      | Define m => PP ({[ m ]} ∪ defined st) 0 (included st) (declared st)
      | Include h => PP (defined st) 0 (included st ++ [h]) (declared st)
      | Fun_decl p =>
          PP (defined st) 0 (included st) (declared st ++ [p])
      | Endif => st
      end
  end.

Definition preprocess (u : list line) (st : pp_state) : pp_state :=
  foldl pp_line st u.

(** A translation unit that includes the header [n] times. *)
Fixpoint include_times (n : nat) (st : pp_state) : pp_state :=
  match n with
  | O => st
  | S k => include_times k (preprocess nt_h st)
  end.

(** *** What the preprocessor does at each live line *)

(** What a live line makes the preprocessor do, with what it knew at
    that point: an [#include] is resolved under the macros defined so
    far, a prototype reaches the compiler after the headers asked for so
    far. *)
Inductive pp_event :=
  | Including (header : string) (macros : gset string)
  | Declaring (p : prototype) (headers : list string).

Definition pp_event_of (st : pp_state) (l : line) : list pp_event :=
  match skipping st, l with
  | O, Include h => [Including h (defined st)]
  | O, Fun_decl p => [Declaring p (included st)]
  | _, _ => []
  end.

(** The events of a run of [preprocess], in order; the state moves line
    by line as [pp_line] says. *)
Fixpoint pp_events (u : list line) (st : pp_state) : list pp_event :=
  match u with
  | [] => []
  | l :: rest => pp_event_of st l ++ pp_events rest (pp_line st l)
  end.

(** *** The SDK names the prototype mentions *)

Inductive direction := Input | Output.
Inductive linkage := Imported | Internal.
Inductive convention := Stdcall | Cdecl.

(** C types as far as the prototype needs them. *)
Inductive ctype :=
  | Boolean
  | Int (signed : bool) (bits : N)
  | Pointer (target : ctype)
  | Status.

Inductive sdk_entity :=
  | Annotation (d : direction)
  | Linkage (l : linkage)
  | Convention (c : convention)
  | Typedef (t : ctype).

#[global] Instance direction_eq_dec : EqDecision direction.
Proof. solve_decision. Defined.
#[global] Instance linkage_eq_dec : EqDecision linkage.
Proof. solve_decision. Defined.
#[global] Instance convention_eq_dec : EqDecision convention.
Proof. solve_decision. Defined.
#[global] Instance ctype_eq_dec : EqDecision ctype.
Proof. solve_decision. Defined.

(** Modelled from the spec: the meaning of the Windows SDK names used by
    the prototype.  They come from [<windows.h>] and [<wincred.h>], which
    the repository includes and does not hold.  The spec reads the
    prototype as a binding by symbol name to an OS export taking
    "(alertable: boolean, delay_interval: pointer to signed 64-bit
    integer)" and "returning a native status code". *)
Definition windows_sdk : gmap string sdk_entity :=
  list_to_map
    [ ("IN", Annotation Input);
      ("NTSYSAPI", Linkage Imported);
      ("NTAPI", Convention Stdcall);
      ("BOOLEAN", Typedef Boolean);
      ("PLARGE_INTEGER", Typedef (Pointer (Int true 64)));
      ("NTSTATUS", Typedef Status) ].

(** *** Elaboration of a prototype *)

Record formal := Formal {
  f_direction : direction;
  f_type : ctype
}.

Record signature := Signature {
  sig_symbol : string;
  sig_linkage : linkage;
  sig_convention : convention;
  sig_formals : list formal;
  sig_result : ctype
}.

#[global] Instance formal_eq_dec : EqDecision formal.
Proof. solve_decision. Defined.
#[global] Instance signature_eq_dec : EqDecision signature.
Proof. solve_decision. Defined.

Section Elaboration.
(** The SDK names in scope where the prototype stands. *)
Variable sdk : gmap string sdk_entity.

Definition as_annotation (id : string) : option direction :=
  match sdk !! id with Some (Annotation d) => Some d | _ => None end.
Definition as_linkage (id : string) : option linkage :=
  match sdk !! id with Some (Linkage l) => Some l | _ => None end.
Definition as_convention (id : string) : option convention :=
  match sdk !! id with Some (Convention c) => Some c | _ => None end.
Definition as_type (id : string) : option ctype :=
  match sdk !! id with Some (Typedef t) => Some t | _ => None end.

Definition elaborate_parameter (p : parameter) : option formal :=
  d ← as_annotation (par_annotation p);
  t ← as_type (par_type p);
  Some (Formal d t).

Definition elaborate (p : prototype) : option signature :=
  l ← as_linkage (pr_linkage p);
  r ← as_type (pr_result p);
  c ← as_convention (pr_convention p);
  fs ← mapM elaborate_parameter (pr_params p);
  Some (Signature (pr_name p) l c fs r).
End Elaboration.

(** The tokens of a prototype that must be names of the SDK. *)
Definition sdk_tokens (p : prototype) : list string :=
  [pr_linkage p; pr_result p; pr_convention p]
  ++ (pr_params p ≫= λ q, [par_annotation q; par_type q]).

Section Unit.
(** What each header supplies, by header name.  A header that is not
    there cannot be included. *)
Variable provides : gmap string (gmap string sdk_entity).

(** The SDK names in scope after the headers [hs] have been included;
    nothing when one of them is missing. *)
Definition in_scope (hs : list string) : option (gmap string sdk_entity) :=
  tables ← mapM (λ h, provides !! h) hs;
  Some (⋃ tables).

Definition elaborate_event (e : pp_event) : option (list signature) :=
  match e with
  | Including h _ => _ ← provides !! h; Some []
  | Declaring p hs => scope ← in_scope hs; s ← elaborate scope p; Some [s]
  end.

(** The functions the own lines of [u] declare, each prototype read with
    the names in scope where it stands.  The text's own macros are not
    applied to a prototype: the header defines its guard and
    [WIN32_LEAN_AND_MEAN], neither of which is a token of its
    prototype. *)
Definition interface (u : list line) : option (list signature) :=
  sigs ← mapM elaborate_event (pp_events u pp_start);
  Some (concat sigs).
End Unit.

(** Modelled from the spec: the two SDK headers, which the repository
    includes and does not hold, as far as the prototype needs them.
    The meaning of the names is that of [windows_sdk];
    [<windows.h>] supplies the annotation, the two declaration macros
    and the two parameter types, [<wincred.h>] the status type. *)
Definition sdk_headers : gmap string (gmap string sdk_entity) :=
  {[ "windows.h" := delete "NTSTATUS" windows_sdk;
     "wincred.h" := {[ "NTSTATUS" := Typedef Status ]} ]}.

(** The include guard's macro. *)
Definition guard : string := "__CWINPRIVATE_NT_H".

(** The signature of the native export, written out. *)
Definition native_signature : signature :=
  Signature "NtDelayExecution" Imported Stdcall
    [Formal Input Boolean; Formal Input (Pointer (Int true 64))] Status.

(** The interface of [nt.h] under the SDK headers above. *)
Definition nt_interface : list signature :=
  default [] (interface sdk_headers nt_h).

(** *** Typing a call against an interface *)

(** An actual argument as the type checker sees it: an expression of a
    type, the integer constant [0] (which is also a null pointer
    constant), or an expression of type pointer to void. *)
Inductive actual :=
  | Typed (t : ctype)
  | Zero_constant
  | Void_pointer.

#[global] Instance actual_eq_dec : EqDecision actual.
Proof. solve_decision. Defined.

Definition arithmetic (t : ctype) : bool :=
  match t with
  | Boolean | Int _ _ | Status => true
  | Pointer _ => false
  end.

(** With a prototype in scope an actual argument is converted to the
    type of the formal as if by assignment.  The constraints of simple
    assignment: arithmetic to arithmetic, a pointer to a pointer to the
    same type, a null pointer constant or a pointer to void to any
    pointer. *)
Definition assignable (t : ctype) (a : actual) : bool :=
  match a, t with
  | Typed u, Pointer _ => bool_decide (u = t)
  | Typed u, _ => arithmetic u
  | Zero_constant, _ => true
  | Void_pointer, Pointer _ => true
  | Void_pointer, _ => false
  end.

Fixpoint assignable_all (ts : list ctype) (acts : list actual) : bool :=
  match ts, acts with
  | [], [] => true
  | t :: ts', a :: acts' => assignable t a && assignable_all ts' acts'
  | _, _ => false
  end.

(** A call site: the symbol called and the actual arguments. *)
Record call := Call {
  callee : string;
  actuals : list actual
}.

(** C has one declaration per name: the first signature with the
    symbol. *)
Fixpoint lookup_signature (iface : list signature) (name : string)
  : option signature :=
  match iface with
  | [] => None
  | s :: rest =>
      if decide (sig_symbol s = name) then Some s
      else lookup_signature rest name
  end.

(** The type of a call: the callee must be declared, the actuals as many
    as the formals and each assignable to its formal. *)
Definition check_call (iface : list signature) (c : call) : option ctype :=
  s ← lookup_signature iface (callee c);
  if assignable_all (f_type <$> sig_formals s) (actuals c)
  then Some (sig_result s) else None.

End Header.

(** ** Calling through the declared binding *)

Module Binding.
Import Header.

(** Run-time values at a call: a [BOOLEAN] truth value, an integer, a
    pointer (a byte address; the null pointer is address 0). *)
Inductive value :=
  | VBool (b : bool)
  | VInt (n : Z)
  | VPtr (address : Z).

(** An export of the OS: from the arguments it receives and the memory
    to a status and the memory it leaves behind.  Memory is bytes
    (0 to 255) by byte address; an address with no byte is not
    mapped. *)
Definition export : Type := list value → gmap Z Z → Z * gmap Z Z.

(** An integer brought into a type of [bits] bits, two's complement when
    signed. *)
Definition wrap (signed : bool) (bits : N) (n : Z) : Z :=
  let modulus := 2 ^ Z.of_N bits in
  if signed then (n + modulus / 2) mod modulus - modulus / 2
  else n mod modulus.

(** The value a formal of type [t] receives for the actual value [v]:
    the conversion as if by assignment, at run time.  An integer becomes
    a [BOOLEAN] through its low byte; a pointer formal takes a pointer
    (a null pointer constant is the pointer 0) and nothing else without a
    cast.  Nothing here looks at what a pointer refers to. *)
Definition pass (t : ctype) (v : value) : option value :=
  match t, v with
  | Boolean, VBool b => Some (VBool b)
  | Boolean, VInt n => Some (VBool (negb (n mod 256 =? 0)))
  | Int s bits, VInt n => Some (VInt (wrap s bits n))
  | Int s bits, VBool b => Some (VInt (wrap s bits (if b then 1 else 0)))
  | Status, VInt n => Some (VInt (wrap true 32 n))
  | Status, VBool b => Some (VInt (if b then 1 else 0))
  | Pointer _, VPtr p => Some (VPtr p)
  | _, _ => None
  end.

Fixpoint pass_all (ts : list ctype) (vs : list value)
  : option (list value) :=
  match ts, vs with
  | [], [] => Some []
  | t :: ts', v :: vs' =>
      w ← pass t v; ws ← pass_all ts' vs'; Some (w :: ws)
  | _, _ => None
  end.

(** A call of a declared function.  A prototype has no body, so an
    imported symbol is bound by name in the export table [os] of the
    running system; the export receives the converted arguments and the
    caller's memory as they are. *)
Definition call_declared (iface : list signature) (os : gmap string export)
    (name : string) (args : list value) (m : gmap Z Z)
  : option (Z * gmap Z Z) :=
  s ← lookup_signature iface name;
  vs ← pass_all (f_type <$> sig_formals s) args;
  match sig_linkage s with
  | Imported => f ← os !! sig_symbol s; Some (f vs m)
  | Internal => None
  end.

(** [NtDelayExecution(alertable, interval)] as a C caller writes it. *)
Definition call_NtDelayExecution (os : gmap string export)
    (alertable : bool) (interval : Z) (m : gmap Z Z)
  : option (Z * gmap Z Z) :=
  call_declared nt_interface os "NtDelayExecution"
    [VBool alertable; VPtr interval] m.

(** [n] bytes from address [a] on, read as a little-endian number. *)
Fixpoint load_le (m : gmap Z Z) (a : Z) (n : nat) : option Z :=
  match n with
  | O => Some 0
  | S k => b ← m !! a; rest ← load_le m (a + 1) k; Some (b + 256 * rest)
  end.

(** The [LARGE_INTEGER] at address [a]: eight bytes, signed. *)
Definition load_i64 (m : gmap Z Z) (a : Z) : option Z :=
  u ← load_le m a 8; Some (wrap true 64 u).

Fixpoint store_le (a : Z) (n : nat) (u : Z) (m : gmap Z Z) : gmap Z Z :=
  match n with
  | O => m
  | S k => <[a := u mod 256]> (store_le (a + 1) k (u / 256) m)
  end.

Definition store_i64 (a : Z) (v : Z) (m : gmap Z Z) : gmap Z Z :=
  store_le a 8 (v mod 2 ^ 64) m.

(** A pointer a C caller may dereference as a [LARGE_INTEGER]: not null,
    inside the 64-bit address space, aligned to 8 bytes, all eight bytes
    mapped. *)
Definition valid_interval (m : gmap Z Z) (p : Z) : bool :=
  (0 <? p) && (p + 8 <=? 2 ^ 64) && (p mod 8 =? 0)
  && bool_decide (is_Some (load_i64 m p)).

End Binding.

(** ** The delay operation of the spec *)

Module Delay.

(** Modelled from the spec: the results of the operation (section 4.1),
    with the opaque native failure of section 7. *)
Inductive result :=
  | Success
  | InvalidParameter
  | Unsupported
  | NativeFailure (status : Z).

(** Modelled from the spec: the process-wide state of section 9,
    "recording whether the native entry point resolved successfully",
    together with the native calls made so far, oldest first, each with
    its alertable flag and its interval. *)
Record process := Process {
  resolved : bool;
  native_calls : list (bool * Z)
}.

(** Modelled from the spec: the invariant of section 3, the duration
    is "convertible without overflow to the native 64-bit signed integer
    representation". *)
Definition representable (duration : Z) : bool :=
  (- 2 ^ 63 <=? duration) && (duration <? 2 ^ 63).

Section Operation.
(** The running system: the status the native call returns, given the
    calls made before it and its two arguments; which statuses count
    as success; the status that reports an invalid parameter. *)
Variable native_status : list (bool * Z) → bool → Z → Z.
Variable is_success : Z → bool.
Variable STATUS_INVALID_PARAMETER : Z.

(** Modelled from the spec: the mapping of the native status to the
    operation's result (sections 4.1 and 7); the code that does it is
    not among the sources.  A success status is [Success], the
    invalid-parameter status is [InvalidParameter], "any other
    non-success status from the OS is propagated verbatim to the caller
    as an opaque failure carrying the native status value". *)
Definition translate (status : Z) : result :=
  if is_success status then Success
  else if status =? STATUS_INVALID_PARAMETER then InvalidParameter
  else NativeFailure status.

(** Modelled from the spec: the operation [delay(duration, alertable)]
    of section 4.1, the caller of [NtDelayExecution]; only the
    declaration it calls is among the sources.  A duration that does
    not convert to the native representation is a precondition failure
    ("never silently clamp"), an unresolved entry point is
    [Unsupported], and otherwise the native call is made once ("no
    retries inside this core") and its status translated. *)
Definition delay (duration : Z) (alertable : bool) (st : process)
  : result * process :=
  if negb (representable duration) then (InvalidParameter, st)
  else if negb (resolved st) then (Unsupported, st)
  else
    let status := native_status (native_calls st) alertable duration in
    (translate status,
     Process (resolved st) (native_calls st ++ [(alertable, duration)])).
End Operation.

End Delay.

(** ** What the header's includes are for *)

Module Observation.
Import Header.

(** The header's only [#include]s happen under its two macros. *)
Definition lean_include (e : pp_event) : Prop :=
  match e with
  | Including _ ms => "WIN32_LEAN_AND_MEAN" ∈ ms ∧ guard ∈ ms
  | Declaring _ _ => True
  end.

End Observation.

(** ** Sample systems for the examples *)

Module Samples.
Import Header Binding.

(** The status values of the sample system, as signed 32-bit integers. *)
Definition SAMPLE_SUCCESS : Z := 0.
Definition SAMPLE_INVALID_PARAMETER : Z := -1073741811.
Definition SAMPLE_ACCESS_VIOLATION : Z := -1073741819.

(** A sample export: it reads the interval through the pointer, answers
    with the access-violation status when the pointer is not one a caller
    may dereference, and writes nothing. *)
Definition sample_export : export := λ args m,
  match args with
  | [VBool _; VPtr p] =>
      if valid_interval m p then (SAMPLE_SUCCESS, m)
      else (SAMPLE_ACCESS_VIOLATION, m)
  | _ => (SAMPLE_INVALID_PARAMETER, m)
  end.

Definition sample_os : gmap string export :=
  {[ "NtDelayExecution" := sample_export ]}.

(** A caller's memory: two intervals, at addresses 16 and 24, each
    asking for a relative delay of 20000 units. *)
Definition sample_memory : gmap Z Z :=
  store_i64 16 (-20000) (store_i64 24 (-20000) ∅).

(** Some other function a unit may have in scope beside the header's. *)
Definition Sleep_signature : signature :=
  Signature "Sleep" Imported Stdcall [Formal Input (Int false 32)]
    (Int false 32).

(** A native call that always fails with the access-violation status,
    and the success test of the sample system. *)
Definition failing_native : list (bool * Z) → bool → Z → Z :=
  λ _ _ _, SAMPLE_ACCESS_VIOLATION.
Definition sample_is_success (status : Z) : bool := 0 <=? status.

End Samples.

(** ** Properties of the header *)

Module HeaderFacts.
Import Header.

Lemma first_inclusion :
  preprocess nt_h pp_start =
  PP ({["WIN32_LEAN_AND_MEAN"]} ∪ ({[guard]} ∪ ∅)) 0
     ["windows.h"; "wincred.h"] [NtDelayExecution].
Proof.
  unfold preprocess, nt_h, pp_start; cbn [foldl].
  unfold pp_line at 7; cbn [skipping defined].
  rewrite decide_False by set_solver.
  reflexivity.
Qed.

(** Once the guard macro is defined, live text that includes the header
    again gets nothing from it. *)
Lemma guarded_inclusion (st : pp_state) :
  skipping st = 0%nat → guard ∈ defined st → preprocess nt_h st = st.
Proof.
  destruct st as [ms k hs ds]; cbn [skipping defined]; intros -> Hin.
  unfold preprocess, nt_h; cbn [foldl].
  unfold pp_line at 7; cbn [skipping defined].
  rewrite decide_True by exact Hin.
  reflexivity.
Qed.

Lemma include_times_guarded (n : nat) (st : pp_state) :
  skipping st = 0%nat → guard ∈ defined st → include_times n st = st.
Proof.
  intros Hlive Hin; induction n as [|n IH]; cbn [include_times].
  - reflexivity.
  - rewrite guarded_inclusion by assumption. exact IH.
Qed.

Lemma include_times_S (n : nat) :
  include_times (S n) pp_start = preprocess nt_h pp_start.
Proof.
  cbn [include_times]. apply include_times_guarded.
  - rewrite first_inclusion; reflexivity.
  - rewrite first_inclusion; cbn [defined]; set_solver.
Qed.

(** Inside a skipped group the header's own conditional is counted and
    closed again, and nothing else happens. *)
Lemma skipped_inclusion (st : pp_state) (d : nat) :
  skipping st = S d → preprocess nt_h st = st.
Proof.
  destruct st as [ms k hs ds]; cbn [skipping]; intros ->. reflexivity.
Qed.

(** Live and not yet guarded, the header's lines add its two macros, its
    two includes and its prototype. *)
Lemma live_inclusion (st : pp_state) :
  skipping st = 0%nat → guard ∉ defined st →
  preprocess nt_h st =
  PP ({["WIN32_LEAN_AND_MEAN"]} ∪ ({[guard]} ∪ defined st)) 0
     ((included st ++ ["windows.h"]) ++ ["wincred.h"])
     (declared st ++ [NtDelayExecution]).
Proof.
  destruct st as [ms k hs ds]; cbn [skipping defined]; intros -> Hout.
  unfold preprocess, nt_h; cbn [foldl].
  unfold pp_line at 7; cbn [skipping defined].
  rewrite decide_False by exact Hout.
  reflexivity.
Qed.

Lemma guard_after_live (st : pp_state) :
  skipping st = 0%nat → guard ∉ defined st →
  skipping (preprocess nt_h st) = 0%nat
  ∧ guard ∈ defined (preprocess nt_h st).
Proof.
  intros Hs Hg. rewrite (live_inclusion st Hs Hg). cbn [skipping defined].
  split; [reflexivity | set_solver].
Qed.

Lemma ifndef_defined (ms : gset string) (hs : list string)
    (ds : list prototype) (m : string) :
  m ∈ ms → pp_line (PP ms 0 hs ds) (Ifndef m) = PP ms 1 hs ds.
Proof.
  intros Hin. unfold pp_line; cbn [skipping defined included declared].
  rewrite decide_True by exact Hin. reflexivity.
Qed.

Lemma ifndef_undefined (ms : gset string) (hs : list string)
    (ds : list prototype) (m : string) :
  m ∉ ms → pp_line (PP ms 0 hs ds) (Ifndef m) = PP ms 0 hs ds.
Proof.
  intros Hout. unfold pp_line; cbn [skipping defined].
  rewrite decide_False by exact Hout. reflexivity.
Qed.

Lemma pp_events_skipped (st : pp_state) (d : nat) :
  skipping st = S d → pp_events nt_h st = [].
Proof.
  destruct st as [ms k hs ds]; cbn [skipping]; intros ->. reflexivity.
Qed.

Lemma pp_events_guarded (st : pp_state) :
  skipping st = 0%nat → guard ∈ defined st → pp_events nt_h st = [].
Proof.
  destruct st as [ms k hs ds]; cbn [skipping defined]; intros -> Hin.
  unfold nt_h; cbn [pp_events].
  rewrite !ifndef_defined by exact Hin.
  reflexivity.
Qed.

Lemma pp_events_live (st : pp_state) :
  skipping st = 0%nat → guard ∉ defined st →
  pp_events nt_h st =
  [ Including "windows.h"
      ({["WIN32_LEAN_AND_MEAN"]} ∪ ({[guard]} ∪ defined st));
    Including "wincred.h"
      ({["WIN32_LEAN_AND_MEAN"]} ∪ ({[guard]} ∪ defined st));
    Declaring NtDelayExecution
      ((included st ++ ["windows.h"]) ++ ["wincred.h"]) ].
Proof.
  destruct st as [ms k hs ds]; cbn [skipping defined included]; intros -> Hout.
  unfold nt_h; cbn [pp_events].
  rewrite !ifndef_undefined by exact Hout.
  reflexivity.
Qed.

Lemma first_events :
  pp_events nt_h pp_start =
  [ Including "windows.h" ({["WIN32_LEAN_AND_MEAN"]} ∪ ({[guard]} ∪ ∅));
    Including "wincred.h" ({["WIN32_LEAN_AND_MEAN"]} ∪ ({[guard]} ∪ ∅));
    Declaring NtDelayExecution ["windows.h"; "wincred.h"] ].
Proof. apply pp_events_live; [reflexivity | set_solver]. Qed.

(** The prototype's tokens in the order [sdk_tokens] lists them. *)
Lemma sdk_tokens_NtDelayExecution :
  sdk_tokens NtDelayExecution =
  ["NTSYSAPI"; "NTSTATUS"; "NTAPI"; "IN"; "BOOLEAN"; "IN"; "PLARGE_INTEGER"].
Proof. reflexivity. Qed.

(** With the prototype's SDK tokens meaning what [windows_sdk] says, the
    prototype elaborates to the native signature. *)
Lemma elaborate_in_scope (scope : gmap string sdk_entity) :
  Forall (λ id, scope !! id = windows_sdk !! id)
         (sdk_tokens NtDelayExecution) →
  elaborate scope NtDelayExecution = Some native_signature.
Proof.
  rewrite sdk_tokens_NtDelayExecution. intros H.
  pose proof (proj1 (Forall_lookup _ _) H) as Hat.
  pose proof (Hat 0%nat _ eq_refl) as H0.
  pose proof (Hat 1%nat _ eq_refl) as H1.
  pose proof (Hat 2%nat _ eq_refl) as H2.
  pose proof (Hat 3%nat _ eq_refl) as H3.
  pose proof (Hat 4%nat _ eq_refl) as H4.
  pose proof (Hat 6%nat _ eq_refl) as H6.
  cbv beta in H0, H1, H2, H3, H4, H6.
  unfold elaborate, elaborate_parameter, NtDelayExecution.
  cbn [pr_linkage pr_result pr_convention pr_name pr_params mapM
       par_annotation par_type].
  unfold as_linkage, as_type, as_convention, as_annotation.
  rewrite H0, H1, H2, H3, H4, H6.
  reflexivity.
Qed.

(** Both SDK headers are there when their names are in scope. *)
Lemma in_scope_provided (provides : gmap string (gmap string sdk_entity))
    (scope : gmap string sdk_entity) :
  in_scope provides ["windows.h"; "wincred.h"] = Some scope →
  is_Some (provides !! "windows.h") ∧ is_Some (provides !! "wincred.h").
Proof.
  unfold in_scope. cbn [mapM].
  destruct (provides !! "windows.h"), (provides !! "wincred.h");
    cbn; try discriminate; eauto.
Qed.

Lemma interface_in_scope (provides : gmap string (gmap string sdk_entity))
    (scope : gmap string sdk_entity) :
  in_scope provides ["windows.h"; "wincred.h"] = Some scope →
  Forall (λ id, scope !! id = windows_sdk !! id)
         (sdk_tokens NtDelayExecution) →
  interface provides nt_h = Some [native_signature].
Proof.
  intros Hscope Hagree.
  destruct (in_scope_provided provides scope Hscope) as [[tw Hw] [tc Hc]].
  unfold interface. rewrite first_events. cbn [mapM elaborate_event].
  rewrite Hw, Hc, Hscope. cbn [mbind option_bind].
  rewrite (elaborate_in_scope scope Hagree). reflexivity.
Qed.

Lemma nt_interface_eq : nt_interface = [native_signature].
Proof. vm_compute. reflexivity. Qed.

(** Looking a name up in a longer interface. *)
Lemma lookup_signature_absent (others rest : list signature) (name : string) :
  Forall (λ s, sig_symbol s ≠ name) others →
  lookup_signature (others ++ rest) name = lookup_signature rest name.
Proof.
  induction 1 as [|s others Hs _ IH]; cbn [app lookup_signature].
  - reflexivity.
  - rewrite decide_False by exact Hs. exact IH.
Qed.

Lemma lookup_signature_other (others : list signature) (name : string) :
  name ≠ "NtDelayExecution" →
  lookup_signature (others ++ [native_signature]) name
  = lookup_signature others name.
Proof.
  intros Hne. induction others as [|s others IH]; cbn [app lookup_signature].
  - cbn [native_signature sig_symbol].
    rewrite decide_False by congruence. reflexivity.
  - destruct (decide (sig_symbol s = name)); [reflexivity | exact IH].
Qed.

End HeaderFacts.

(** ** Properties of a call through the binding *)

Module BindingFacts.
Import Header HeaderFacts Binding.

(** The type of a call of the native symbol. *)
Lemma check_native (acts : list actual) :
  (if assignable_all (f_type <$> sig_formals native_signature) acts
   then Some (sig_result native_signature) else None)
  = match acts with
    | [a; b] =>
        if assignable Boolean a && assignable (Pointer (Int true 64)) b
        then Some Status else None
    | _ => None
    end.
Proof.
  cbn [native_signature sig_formals sig_result fmap list_fmap f_type].
  destruct acts as [|a [|b [|c rest]]]; cbn [assignable_all].
  - reflexivity.
  - rewrite andb_false_r. reflexivity.
  - rewrite andb_true_r. reflexivity.
  - rewrite !andb_false_r. reflexivity.
Qed.

(** A [BOOLEAN] formal receives a truth value or the call is not made. *)
Lemma pass_Boolean (v : value) :
  pass Boolean v = None ∨ ∃ b, pass Boolean v = Some (VBool b).
Proof. destruct v; cbn [pass]; eauto. Qed.

(** The run of a call of the native symbol. *)
Lemma run_native (os : gmap string export) (args : list value)
    (m : gmap Z Z) :
  (vs ← pass_all (f_type <$> sig_formals native_signature) args;
   match sig_linkage native_signature with
   | Imported => f ← os !! sig_symbol native_signature; Some (f vs m)
   | Internal => None
   end)
  = match args with
    | [a; VPtr p] =>
        match pass Boolean a, os !! "NtDelayExecution" with
        | Some (VBool b), Some f => Some (f [VBool b; VPtr p] m)
        | _, _ => None
        end
    | _ => None
    end.
Proof.
  cbn [native_signature sig_formals sig_linkage sig_symbol fmap list_fmap
       f_type].
  destruct args as [|a [|v [|w rest]]]; cbn [pass_all]; try reflexivity.
  - destruct (pass Boolean a); reflexivity.
  - destruct (pass_Boolean a) as [-> | [b ->]]; cbn [mbind option_bind];
      destruct v; cbn [pass mbind option_bind pass_all]; try reflexivity.
  - destruct (pass_Boolean a) as [-> | [b ->]]; cbn [mbind option_bind];
      destruct v; cbn [pass mbind option_bind pass_all]; reflexivity.
Qed.

(** A call of [NtDelayExecution] reaches the export bound to that name
    with the caller's arguments and memory, whatever the pointer is. *)
Lemma call_NtDelayExecution_eq (os : gmap string export)
    (alertable : bool) (interval : Z) (m : gmap Z Z) :
  call_NtDelayExecution os alertable interval m =
  (λ f : export, f [VBool alertable; VPtr interval] m)
    <$> os !! "NtDelayExecution".
Proof.
  unfold call_NtDelayExecution, call_declared.
  rewrite nt_interface_eq. cbn [lookup_signature native_signature sig_symbol].
  rewrite decide_True by reflexivity. cbn [mbind option_bind].
  fold native_signature. rewrite run_native. cbn [pass].
  destruct (os !! "NtDelayExecution"); reflexivity.
Qed.

(** C1: with the two SDK headers in scope and the prototype's SDK names
    meaning what the spec reads them to mean, the header's own lines
    declare one function and no other: the imported symbol
    [NtDelayExecution], taking a boolean (Alertable) and a pointer to a
    signed 64-bit integer (DelayInterval) and returning a native status;
    this stays so however many times the header is included.  In a unit
    whose other declarations do not declare that symbol, a call of it
    type-checks exactly when it has two actual arguments that convert as
    if by assignment to those two types, and then has the status type;
    when it runs, the export bound to the symbol receives a boolean and a
    pointer; and the header changes nothing about a call of any other
    symbol. *)
Theorem nt_h_sole_boundary
    (provides : gmap string (gmap string sdk_entity))
    (scope : gmap string sdk_entity) (others : list signature) :
  in_scope provides ["windows.h"; "wincred.h"] = Some scope →
  Forall (λ id, scope !! id = windows_sdk !! id)
         (sdk_tokens NtDelayExecution) →
  Forall (λ s, sig_symbol s ≠ "NtDelayExecution") others →
  let own := default [] (interface provides nt_h) in
  interface provides nt_h = Some [native_signature]
  ∧ (∀ n : nat, declared (include_times (S n) pp_start) = [NtDelayExecution])
  ∧ (∀ c : call,
       check_call (others ++ own) c =
       if decide (callee c = "NtDelayExecution") then
         match actuals c with
         | [a; b] =>
             if assignable Boolean a && assignable (Pointer (Int true 64)) b
             then Some Status else None
         | _ => None
         end
       else check_call others c)
  ∧ (∀ (os : gmap string export) (name : string) (args : list value)
       (m : gmap Z Z),
       call_declared (others ++ own) os name args m =
       if decide (name = "NtDelayExecution") then
         match args with
         | [a; VPtr p] =>
             match pass Boolean a, os !! "NtDelayExecution" with
             | Some (VBool b), Some f => Some (f [VBool b; VPtr p] m)
             | _, _ => None
             end
         | _ => None
         end
       else call_declared others os name args m).
Proof.
  intros Hscope Hagree Hothers own.
  pose proof (interface_in_scope provides scope Hscope Hagree) as Hown.
  subst own. rewrite Hown.
  change (default [] (Some [native_signature])) with [native_signature].
  split; [reflexivity | split; [|split]].
  - intros n. rewrite include_times_S, first_inclusion. reflexivity.
  - intros c. unfold check_call.
    destruct (decide (callee c = "NtDelayExecution")) as [Heq|Hne].
    + rewrite Heq.
      rewrite (lookup_signature_absent others _ _ Hothers).
      cbn [lookup_signature native_signature sig_symbol].
      rewrite decide_True by reflexivity. cbn [mbind option_bind].
      fold native_signature. apply check_native.
    + rewrite (lookup_signature_other others _ Hne). reflexivity.
  - intros os name args m. unfold call_declared.
    destruct (decide (name = "NtDelayExecution")) as [->|Hne].
    + rewrite (lookup_signature_absent others _ _ Hothers).
      cbn [lookup_signature native_signature sig_symbol].
      rewrite decide_True by reflexivity. cbn [mbind option_bind].
      fold native_signature. apply run_native.
    + rewrite (lookup_signature_other others _ Hne). reflexivity.
Qed.

(** C10: the binding puts no check between the caller and the export.
    For every pointer passed as the delay interval (null, misaligned or
    not mapped included) and every memory, the call is exactly the export
    bound to the symbol applied to the caller's arguments and memory; the
    only way the call is not made is that the symbol is not bound. *)
Theorem binding_checks_no_pointer (os : gmap string export)
    (alertable : bool) (interval : Z) (m : gmap Z Z) :
  call_NtDelayExecution os alertable interval m =
  match os !! "NtDelayExecution" with
  | Some f => Some (f [VBool alertable; VPtr interval] m)
  | None => None
  end.
Proof.
  rewrite call_NtDelayExecution_eq.
  destruct (os !! "NtDelayExecution"); reflexivity.
Qed.

End BindingFacts.

Module HeaderExamples.
Import Header HeaderFacts Binding BindingFacts Samples.

(** The header under the sample SDK, in a unit that also has [Sleep]. *)
Lemma nt_h_sole_boundary_witness :
  interface sdk_headers nt_h = Some [native_signature]
  ∧ (∀ n : nat, declared (include_times (S n) pp_start) = [NtDelayExecution])
  ∧ (∀ c : call,
       check_call ([Sleep_signature] ++ default [] (interface sdk_headers nt_h)) c =
       if decide (callee c = "NtDelayExecution") then
         match actuals c with
         | [a; b] =>
             if assignable Boolean a && assignable (Pointer (Int true 64)) b
             then Some Status else None
         | _ => None
         end
       else check_call [Sleep_signature] c)
  ∧ (∀ (os : gmap string export) (name : string) (args : list value)
       (m : gmap Z Z),
       call_declared ([Sleep_signature] ++ default [] (interface sdk_headers nt_h))
         os name args m =
       if decide (name = "NtDelayExecution") then
         match args with
         | [a; VPtr p] =>
             match pass Boolean a, os !! "NtDelayExecution" with
             | Some (VBool b), Some f => Some (f [VBool b; VPtr p] m)
             | _, _ => None
             end
         | _ => None
         end
       else call_declared [Sleep_signature] os name args m).
Proof.
  apply (nt_h_sole_boundary sdk_headers
           (⋃ [delete "NTSTATUS" windows_sdk; {[ "NTSTATUS" := Typedef Status ]}])
           [Sleep_signature]).
  - reflexivity.
  - rewrite sdk_tokens_NtDelayExecution.
    repeat constructor; vm_compute; reflexivity.
  - repeat constructor. discriminate.
Defined.

Example included_twice :
  include_times 2 pp_start = preprocess nt_h pp_start.
Proof. apply include_times_S. Qed.

Example headers_asked_for :
  included (preprocess nt_h pp_start) = ["windows.h"; "wincred.h"].
Proof. rewrite first_inclusion. reflexivity. Qed.

(** Met inside a skipped group, the header does nothing and the group
    stays skipped. *)
Example inside_skipped_group :
  preprocess nt_h (PP ∅ 2 [] []) = PP ∅ 2 [] []
  ∧ pp_events nt_h (PP ∅ 2 [] []) = [].
Proof. split; reflexivity. Qed.

(** A header that is not there cannot be included, and without
    [<wincred.h>] in the text the status type is not in scope. *)
Example missing_header : interface (delete "wincred.h" sdk_headers) nt_h = None.
Proof. vm_compute. reflexivity. Qed.

Example prototype_without_wincred :
  interface sdk_headers
    [Include "windows.h"; Fun_decl NtDelayExecution] = None.
Proof. vm_compute. reflexivity. Qed.

Example prototype_without_includes :
  interface sdk_headers [Fun_decl NtDelayExecution] = None.
Proof. vm_compute. reflexivity. Qed.

(** An [int] first actual converts to [BOOLEAN]. *)
Example call_with_int_alertable :
  check_call (Sleep_signature :: nt_interface)
    (Call "NtDelayExecution" [Typed (Int true 32); Typed (Pointer (Int true 64))])
  = Some Status.
Proof. vm_compute. reflexivity. Qed.

Example call_with_null_interval :
  check_call (Sleep_signature :: nt_interface)
    (Call "NtDelayExecution" [Typed Boolean; Zero_constant])
  = Some Status.
Proof. vm_compute. reflexivity. Qed.

(** The interval itself, not a pointer to it, is rejected. *)
Example call_with_value_interval :
  check_call (Sleep_signature :: nt_interface)
    (Call "NtDelayExecution" [Typed Boolean; Typed (Int true 64)])
  = None.
Proof. vm_compute. reflexivity. Qed.

Example call_with_other_pointer :
  check_call (Sleep_signature :: nt_interface)
    (Call "NtDelayExecution" [Typed Boolean; Typed (Pointer (Int true 32))])
  = None.
Proof. vm_compute. reflexivity. Qed.

Example call_with_one_argument :
  check_call (Sleep_signature :: nt_interface)
    (Call "NtDelayExecution" [Typed Boolean])
  = None.
Proof. vm_compute. reflexivity. Qed.

(** The rest of the unit is typed as without the header. *)
Example call_of_Sleep :
  check_call (Sleep_signature :: nt_interface)
    (Call "Sleep" [Typed (Int true 32)])
  = Some (Int false 32).
Proof. vm_compute. reflexivity. Qed.

End HeaderExamples.

Module BindingExamples.
Import Header HeaderFacts Binding BindingFacts Samples.

Example sample_memory_intervals :
  load_i64 sample_memory 16 = Some (-20000)
  ∧ load_i64 sample_memory 24 = Some (-20000)
  ∧ load_i64 sample_memory 32 = None.
Proof. vm_compute. repeat split. Qed.

(** A null pointer goes to the export like any other: the status that
    comes back is the export's own. *)
Example null_interval_reaches_export :
  call_NtDelayExecution sample_os false 0 sample_memory
  = Some (SAMPLE_ACCESS_VIOLATION, sample_memory).
Proof. rewrite call_NtDelayExecution_eq. reflexivity. Qed.

(** Address 20 is mapped and not aligned. *)
Example misaligned_interval_reaches_export :
  call_NtDelayExecution sample_os false 20 sample_memory
  = Some (SAMPLE_ACCESS_VIOLATION, sample_memory).
Proof. rewrite call_NtDelayExecution_eq. reflexivity. Qed.

Example unmapped_interval_reaches_export :
  call_NtDelayExecution sample_os false 32 sample_memory
  = Some (SAMPLE_ACCESS_VIOLATION, sample_memory).
Proof. rewrite call_NtDelayExecution_eq. reflexivity. Qed.

Example valid_interval_call :
  call_NtDelayExecution sample_os false 16 sample_memory
  = Some (SAMPLE_SUCCESS, sample_memory).
Proof. rewrite call_NtDelayExecution_eq. reflexivity. Qed.

(** With no export bound to the symbol there is no call. *)
Example unbound_symbol :
  call_NtDelayExecution ∅ false 16 sample_memory = None.
Proof. rewrite call_NtDelayExecution_eq. reflexivity. Qed.

(** An integer actual reaches the export as a [BOOLEAN]: 256 has a zero
    low byte. *)
Example int_alertable_is_converted :
  call_declared nt_interface
    {[ "NtDelayExecution" :=
         (λ args m, (match args with [VBool false; VPtr _] => 0 | _ => 1 end, m))
         : export ]}
    "NtDelayExecution" [VInt 256; VPtr 16] sample_memory
  = Some (0, sample_memory).
Proof. vm_compute. reflexivity. Qed.

End BindingExamples.

(** ** Properties of the delay operation *)

Module DelayFacts.
Import Delay.

Section Facts.
Variable native_status : list (bool * Z) → bool → Z → Z.
Variable is_success : Z → bool.
Variable STATUS_INVALID_PARAMETER : Z.

Lemma representable_spec (d : Z) :
  representable d = true ↔ - 2 ^ 63 ≤ d < 2 ^ 63.
Proof. unfold representable. lia. Qed.

(** A call of [delay] makes at most one native call, after the ones
    made before. *)
Lemma delay_calls_at_most_once (d : Z) (a : bool) (st : process) :
  let st' := (delay native_status is_success STATUS_INVALID_PARAMETER d a st).2 in
  native_calls st' = native_calls st
  ∨ native_calls st' = native_calls st ++ [(a, d)].
Proof.
  unfold Delay.delay.
  destruct (representable d), (resolved st); cbn; auto.
Qed.

(** [delay] reports success only for a success status of the native
    call it made. *)
Lemma delay_success_inv (d : Z) (a : bool) (st : process) :
  (delay native_status is_success STATUS_INVALID_PARAMETER d a st).1 = Success →
  is_success (native_status (native_calls st) a d) = true.
Proof.
  unfold Delay.delay, translate.
  destruct (representable d), (resolved st); cbn; try discriminate.
  destruct (is_success _); [reflexivity|].
  destruct (_ =? _); discriminate.
Qed.
End Facts.

(** C5: a duration outside the native signed 64-bit range yields
    [InvalidParameter]; no native call is made for it, with a clamped
    interval or any other, and the process state is as before. *)
Theorem out_of_range_is_invalid_parameter
    (native_status : list (bool * Z) → bool → Z → Z) (is_success : Z → bool)
    (STATUS_INVALID_PARAMETER : Z) (d : Z) (a : bool) (st : process) :
  ¬ (- 2 ^ 63 ≤ d < 2 ^ 63) →
  delay native_status is_success STATUS_INVALID_PARAMETER d a st
  = (InvalidParameter, st).
Proof.
  intros Hout. unfold delay.
  destruct (representable d) eqn:Hrep.
  - apply representable_spec in Hrep. contradiction.
  - reflexivity.
Qed.

(** C6: when the entry point is resolved and the duration is in range, a
    status of the native call that is neither a success nor the
    invalid-parameter status comes back as [NativeFailure] carrying that
    very status, and the native call was made exactly once. *)
Theorem native_failure_is_verbatim
    (native_status : list (bool * Z) → bool → Z → Z) (is_success : Z → bool)
    (STATUS_INVALID_PARAMETER : Z) (d : Z) (a : bool) (st : process) :
  let status := native_status (native_calls st) a d in
  - 2 ^ 63 ≤ d < 2 ^ 63 →
  resolved st = true →
  is_success status = false →
  status ≠ STATUS_INVALID_PARAMETER →
  delay native_status is_success STATUS_INVALID_PARAMETER d a st
  = (NativeFailure status, Process true (native_calls st ++ [(a, d)])).
Proof.
  intros status Hrange Hres Hfail Hne. unfold delay, translate.
  apply representable_spec in Hrange. rewrite Hrange, Hres. cbn [negb].
  fold status. rewrite Hfail.
  destruct (Z.eqb_spec status STATUS_INVALID_PARAMETER) as [Heq|_];
    [contradiction | reflexivity].
Qed.

End DelayFacts.

Module DelayExamples.
Import Delay DelayFacts Samples.

(** One unit past the largest interval. *)
Lemma out_of_range_is_invalid_parameter_witness :
  ¬ (- 2 ^ 63 ≤ 2 ^ 63 < 2 ^ 63)
  ∧ delay failing_native sample_is_success SAMPLE_INVALID_PARAMETER
      (2 ^ 63) false (Process true [])
    = (InvalidParameter, Process true []).
Proof.
  split; [lia|].
  apply (out_of_range_is_invalid_parameter failing_native sample_is_success
           SAMPLE_INVALID_PARAMETER (2 ^ 63) false (Process true [])).
  lia.
Defined.

(** An access violation reported by the native call. *)
Lemma native_failure_is_verbatim_witness :
  delay failing_native sample_is_success SAMPLE_INVALID_PARAMETER
    (-20000) false (Process true [])
  = (NativeFailure SAMPLE_ACCESS_VIOLATION, Process true [(false, -20000)]).
Proof.
  apply (native_failure_is_verbatim failing_native sample_is_success
           SAMPLE_INVALID_PARAMETER (-20000) false (Process true [])).
  - lia.
  - reflexivity.
  - reflexivity.
  - unfold failing_native, SAMPLE_ACCESS_VIOLATION, SAMPLE_INVALID_PARAMETER.
    lia.
Defined.

Example largest_interval_is_passed_on :
  delay (λ _ _ _, SAMPLE_SUCCESS) sample_is_success SAMPLE_INVALID_PARAMETER
    (2 ^ 63 - 1) true (Process true [])
  = (Success, Process true [(true, 2 ^ 63 - 1)]).
Proof. reflexivity. Qed.

Example unresolved_entry_point :
  delay failing_native sample_is_success SAMPLE_INVALID_PARAMETER
    (-20000) false (Process false [])
  = (Unsupported, Process false []).
Proof. reflexivity. Qed.

Example invalid_parameter_status :
  delay (λ _ _ _, SAMPLE_INVALID_PARAMETER) sample_is_success
    SAMPLE_INVALID_PARAMETER (-20000) false (Process true [])
  = (InvalidParameter, Process true [(false, -20000)]).
Proof. reflexivity. Qed.

End DelayExamples.

(** ** The header in any including context *)

Module HeaderContext.
Import Header HeaderFacts Observation.

(** X1: including the header a second time right after the first changes
    nothing, in every preprocessor state: whatever macros are defined,
    live or inside a skipped group. *)
Theorem inclusion_idempotent (st : pp_state) :
  preprocess nt_h (preprocess nt_h st) = preprocess nt_h st.
Proof.
  destruct (skipping st) as [|d] eqn:Hs.
  - destruct (decide (guard ∈ defined st)) as [Hg|Hg].
    + rewrite !(guarded_inclusion st Hs Hg). reflexivity.
    + destruct (guard_after_live st Hs Hg) as [Hs' Hg'].
      apply guarded_inclusion; assumption.
  - rewrite !(skipped_inclusion st d Hs). reflexivity.
Qed.

(** X4: whenever the header makes the preprocessor resolve an
    [#include], [WIN32_LEAN_AND_MEAN] and the guard macro are already
    defined: the SDK headers are never pulled in without them. *)
Theorem includes_are_lean (st : pp_state) :
  Forall lean_include (pp_events nt_h st).
Proof.
  destruct (skipping st) as [|d] eqn:Hs.
  - destruct (decide (guard ∈ defined st)) as [Hg|Hg].
    + rewrite (pp_events_guarded st Hs Hg). constructor.
    + rewrite (pp_events_live st Hs Hg).
      repeat constructor; cbn [lean_include]; set_solver.
  - rewrite (pp_events_skipped st d Hs). constructor.
Qed.

(** X6: the header's [#ifndef] and [#endif] balance: after the header
    the depth of skipped conditional groups is what it was before, in
    every preprocessor state, so the header never leaves the including
    text inside a group it opened. *)
Theorem inclusion_keeps_nesting (st : pp_state) :
  skipping (preprocess nt_h st) = skipping st.
Proof.
  destruct (skipping st) as [|d] eqn:Hs.
  - destruct (decide (guard ∈ defined st)) as [Hg|Hg].
    + rewrite (guarded_inclusion st Hs Hg). exact Hs.
    + rewrite (live_inclusion st Hs Hg). reflexivity.
  - rewrite (skipped_inclusion st d Hs). exact Hs.
Qed.

End HeaderContext.
